(** * The DeepSeek-R1 notebook: loader, text generator, memory reclaimer

    A shallow embedding of the three functions defined by the notebook
    [deepseek-r1-distilled-llama-70b.ipynb]:

    - [load_model]        (cell 3),
    - [generate_text]     (cell 4),
    - [clear_gpu_memory]  (cell 6).

    Nearly everything these functions do is a call into [transformers],
    [torch], [gc] or the interpreter's builtins.  None of that is part
    of the notebook, so it is taken as a parameter: a [Framework] gives,
    for each external call the notebook makes, an oracle that reads and
    updates the state behind the libraries and either returns a value or
    raises.  The notebook's functions are programs of a small monad that
    threads that state, stops at the first exception, and records every
    external call with its arguments and its outcome, in the order
    Python evaluates them.

    The properties are stated on the oracles: what the framework
    answers, call by call and state by state, is a hypothesis, and the
    conclusion is the whole run: the value or exception it ends with, the
    state it leaves, and the calls on record. *)

From Stdlib Require Import String List ZArith Bool Lia DecimalString.
From Stdlib Require Import Floats.PrimFloat Floats.FloatOps Floats.SpecFloat.
Import ListNotations.

#[local] Set Warnings "-inexact-float".

Local Open Scope string_scope.
Local Open Scope Z_scope.
Local Open Scope list_scope.

(** ** Python values that reach the notebook's parameters *)

(** The notebook checks no argument type, so a sampling parameter is any
    object: [None], a [bool], an [int], a [float] (a binary64 value, as
    in CPython), a [str], or an object of any other class, known by its
    identity only. *)
Inductive pyval : Type :=
| PyNone
| PyBool (b : bool)
| PyInt (z : Z)
| PyFloat (x : float)
| PyStr (s : string)
| PyObject (id : N).

(** An exception: its class and its message. *)
Record exn : Type := Exn { exn_class : string; exn_msg : string }.

(** What [generated_texts[0]] raises on an empty list. *)
Definition IndexError : exn :=
  Exn "IndexError" "list index out of range".

(** What [n / 1e9] raises for an [int] beyond the range of [float]. *)
Definition OverflowError : exn :=
  Exn "OverflowError" "int too large to convert to float".

(** A parameter with a default value: [None] when the caller leaves it
    out. *)
Definition default_arg {A : Type} (d : A) (given : option A) : A :=
  match given with
  | Some a => a
  | None => d
  end.

(** [torch.float16] and its siblings. *)
Inductive torch_dtype : Type := float16 | bfloat16 | float32.

(** The keyword arguments [generate_text] gives to [model.generate]. *)
Record generate_kwargs : Type := GenerateKwargs {
  max_length : pyval;
  temperature : pyval;
  do_sample : bool;
  top_p : pyval;
  num_return_sequences : pyval;
  pad_token_id : pyval
}.

(** What [generate_text] returns: a [str], or a [list] of [str]. *)
Inductive generated : Type :=
| OneText (text : string)
| TextList (texts : list string).

(** The outcome of a call: raised, or returned. *)
Definition outcome (X : Type) : Type := (exn + X)%type.

(** ** The arithmetic and formatting of the report line

    [clear_gpu_memory] prints
    [f"GPU {i} memory allocated: {torch.cuda.memory_allocated(i) / 1e9:.2f} GB"].
    The division and the formatting are the notebook's own; they are
    computed here as CPython computes them. *)

(** [str(z)] for an [int]. *)
Definition str_int (z : Z) : string :=
  NilZero.string_of_int (Z.to_int z).

(** [float(z)] for an [int]: the nearest binary64 value, ties to even,
    and [OverflowError] when that is beyond the largest one. *)
Definition float_of_int (z : Z) : outcome float :=
  match binary_normalize prec emax z 0 false with
  | S754_infinity _ => inl OverflowError
  | x => inr (SF2Prim x)
  end.

(** [n / d] rounded to the nearest integer, ties to even, for [d > 0]. *)
Definition round_half_even (n d : Z) : Z :=
  let q := n / d in
  match 2 * (n mod d) ?= d with
  | Lt => q
  | Gt => q + 1
  | Eq => if Z.even q then q else q + 1
  end.

Definition two_digits (n : Z) : string :=
  if n <? 10 then "0" ++ str_int n else str_int n.

(** [format(x, ".2f")]: the exact value of [x] rounded to two decimals,
    ties to even. *)
Definition format_2f (x : float) : string :=
  let sign (s : bool) := if s then "-" else "" in
  match Prim2SF x with
  | S754_nan => "nan"
  | S754_infinity s => sign s ++ "inf"
  | S754_zero s => sign s ++ "0.00"
  | S754_finite s m e =>
      let hundredths :=
        if 0 <=? e then Zpos m * 100 * 2 ^ e
        else round_half_even (Zpos m * 100) (2 ^ (- e)) in
      sign s ++ str_int (hundredths / 100) ++ "."
             ++ two_digits (hundredths mod 100)
  end.

(** The text of the report line for device [i] with [bytes] allocated;
    [bytes / 1e9] converts [bytes] to [float] first. *)
Definition report_line (i bytes : Z) : outcome string :=
  match float_of_int bytes with
  | inl e => inl e
  | inr x =>
      inr ("GPU " ++ str_int i ++ " memory allocated: "
                  ++ format_2f (x / 1e9) ++ " GB")%string
  end.

(** ** The external framework *)

(** The objects the libraries hand out are opaque to the notebook, and
    so is the state behind them ([hidden]: the hub cache, device memory,
    the sampler's random state, the console).  Attribute reads on
    library objects ([model.device], [inputs.input_ids],
    [tokenizer.eos_token_id]) are library code too (properties), so they
    are oracles like the calls.  What [model.generate] returns is taken
    as the list of its rows, the items [for output in outputs] visits.
    [object_eq_one o] is [o == 1] and its truth test for an object of
    another class, which that class decides; [builtins_print] is
    [print] of one line. *)
Class Framework : Type := {
  hidden : Type;
  Tokenizer : Type;
  Model : Type;
  Device : Type;
  BatchEncoding : Type;
  Tensor : Type;
  AutoTokenizer_from_pretrained :
    string -> hidden -> outcome Tokenizer * hidden;
  AutoModelForCausalLM_from_pretrained :
    string -> torch_dtype -> string -> bool -> hidden -> outcome Model * hidden;
  tokenizer_call :
    Tokenizer -> string -> string -> hidden -> outcome BatchEncoding * hidden;
  model_device : Model -> hidden -> outcome Device * hidden;
  encoding_to :
    BatchEncoding -> Device -> hidden -> outcome BatchEncoding * hidden;
  encoding_input_ids : BatchEncoding -> hidden -> outcome Tensor * hidden;
  tokenizer_eos_token_id : Tokenizer -> hidden -> outcome pyval * hidden;
  model_generate :
    Model -> Tensor -> generate_kwargs -> hidden -> outcome (list Tensor) * hidden;
  tokenizer_decode :
    Tokenizer -> Tensor -> bool -> hidden -> outcome string * hidden;
  object_eq_one : N -> hidden -> outcome bool * hidden;
  gc_collect : hidden -> outcome Z * hidden;
  cuda_empty_cache : hidden -> outcome unit * hidden;
  cuda_is_available : hidden -> outcome bool * hidden;
  cuda_device_count : hidden -> outcome Z * hidden;
  cuda_memory_allocated : Z -> hidden -> outcome Z * hidden;
  builtins_print : string -> hidden -> outcome unit * hidden
}.

Section Notebook.

Context {F : Framework}.

(** ** The record of a run *)

(** One entry per external call, with the arguments the notebook passed
    and what came back. *)
Inductive event : Type :=
| E_AutoTokenizer_from_pretrained (model_name : string) (r : outcome Tokenizer)
| E_AutoModelForCausalLM_from_pretrained
    (model_name : string) (dtype : torch_dtype) (device_map : string)
    (trust_remote_code : bool) (r : outcome Model)
| E_tokenizer_call
    (tokenizer : Tokenizer) (prompt : string) (return_tensors : string)
    (r : outcome BatchEncoding)
| E_model_device (model : Model) (r : outcome Device)
| E_encoding_to (enc : BatchEncoding) (device : Device) (r : outcome BatchEncoding)
| E_encoding_input_ids (inputs : BatchEncoding) (r : outcome Tensor)
| E_tokenizer_eos_token_id (tokenizer : Tokenizer) (r : outcome pyval)
| E_model_generate
    (model : Model) (input_ids : Tensor) (kwargs : generate_kwargs)
    (r : outcome (list Tensor))
| E_tokenizer_decode
    (tokenizer : Tokenizer) (output : Tensor) (skip_special_tokens : bool)
    (r : outcome string)
| E_object_eq_one (o : N) (r : outcome bool)
| E_gc_collect (r : outcome Z)
| E_cuda_empty_cache (r : outcome unit)
| E_cuda_is_available (r : outcome bool)
| E_cuda_device_count (r : outcome Z)
| E_cuda_memory_allocated (i : Z) (r : outcome Z)
| E_print (line : string) (r : outcome unit).

(** ** Programs *)

(** A program runs from a state of the framework to an outcome, the
    state it left and the events it made. *)
Definition M (A : Type) : Type := hidden -> outcome A * hidden * list event.

Definition ret {A : Type} (a : A) : M A :=
  fun h => (inr a, h, []).

(** [raise]: an exception of the notebook's own code; it makes no
    event. *)
Definition throw {A : Type} (e : exn) : M A :=
  fun h => (inl e, h, []).

(** Sequencing: an exception ends the program where it is raised. *)
Definition bind {A B : Type} (m : M A) (k : A -> M B) : M B :=
  fun h =>
    match m h with
    | (inl e, h1, t1) => (inl e, h1, t1)
    | (inr a, h1, t1) =>
        match k a h1 with
        | (r, h2, t2) => (r, h2, t1 ++ t2)
        end
    end.

(** One external call, recorded. *)
Definition call {X : Type} (op : hidden -> outcome X * hidden)
    (record : outcome X -> event) : M X :=
  fun h =>
    match op h with
    | (r, h1) => (r, h1, [record r])
    end.

(** The outcome of a computation of the notebook's own. *)
Definition computed {A : Type} (r : outcome A) : M A :=
  match r with
  | inl e => throw e
  | inr a => ret a
  end.

Notation "x <- m ;; k" := (bind m (fun x => k))
  (at level 100, m at next level, right associativity).

(** A list comprehension [[body(x) for x in xs]]. *)
Fixpoint for_each {A B : Type} (xs : list A) (body : A -> M B) : M (list B) :=
  match xs with
  | [] => ret []
  | x :: rest =>
      y <- body x ;;
      ys <- for_each rest body ;;
      ret (y :: ys)
  end.

(** A [for] statement. *)
Fixpoint for_do {A : Type} (xs : list A) (body : A -> M unit) : M unit :=
  match xs with
  | [] => ret tt
  | x :: rest =>
      _ <- body x ;;
      for_do rest body
  end.

(** [range(n)]. *)
Definition range (n : Z) : list Z :=
  map Z.of_nat (seq 0 (Z.to_nat n)).

(** [xs[0]]. *)
Definition first_item {A : Type} (xs : list A) : M A :=
  match xs with
  | x :: _ => ret x
  | [] => throw IndexError
  end.

(** [v == 1], tested for truth.  [True == 1] and [1.0 == 1] hold, a
    [str] or [None] equals no number, and an object of another class
    answers for itself. *)
Definition eq_one (v : pyval) : M bool :=
  match v with
  | PyInt z => ret (z =? 1)
  | PyBool b => ret b
  | PyFloat x => ret (PrimFloat.eqb x 1)
  | PyNone | PyStr _ => ret false
  | PyObject o => call (object_eq_one o) (E_object_eq_one o)
  end.

(** ** The notebook's functions *)

(** Cell 3. *)
Definition load_model (model_name : option string) : M (Model * Tokenizer) :=
  let model_name :=
    default_arg "deepseek-ai/DeepSeek-R1-Distill-Llama-70B" model_name in
  tokenizer <- call (AutoTokenizer_from_pretrained model_name)
                    (E_AutoTokenizer_from_pretrained model_name) ;;
  model <- call (AutoModelForCausalLM_from_pretrained model_name float16 "auto" true)
                (E_AutoModelForCausalLM_from_pretrained model_name float16 "auto" true) ;;
  ret (model, tokenizer).

(** Cell 4.  Python evaluates [tokenizer(...)], then [model.device],
    then [.to(...)]; then [inputs.input_ids], then the keyword arguments
    left to right (the last one reads [tokenizer.eos_token_id]), then
    [model.generate] itself; in the last line, the test before
    [generated_texts[0]]. *)
Definition generate_text (prompt : string) (model : Model) (tokenizer : Tokenizer)
    (max_length temperature top_p num_return_sequences : option pyval)
    : M generated :=
  let max_length := default_arg (PyInt 100) max_length in
  let temperature := default_arg (PyFloat 0.7) temperature in
  let top_p := default_arg (PyFloat 0.9) top_p in
  let num_return_sequences := default_arg (PyInt 1) num_return_sequences in
  enc <- call (tokenizer_call tokenizer prompt "pt")
              (E_tokenizer_call tokenizer prompt "pt") ;;
  device <- call (model_device model) (E_model_device model) ;;
  inputs <- call (encoding_to enc device) (E_encoding_to enc device) ;;
  input_ids <- call (encoding_input_ids inputs) (E_encoding_input_ids inputs) ;;
  eos_token_id <- call (tokenizer_eos_token_id tokenizer)
                       (E_tokenizer_eos_token_id tokenizer) ;;
  let kwargs :=
    GenerateKwargs max_length temperature true top_p num_return_sequences
                   eos_token_id in
  outputs <- call (model_generate model input_ids kwargs)
                  (E_model_generate model input_ids kwargs) ;;
  generated_texts <-
    for_each outputs (fun output =>
      call (tokenizer_decode tokenizer output true)
           (E_tokenizer_decode tokenizer output true)) ;;
  is_one <- eq_one num_return_sequences ;;
  if (is_one : bool)
  then text <- first_item generated_texts ;; ret (OneText text)
  else ret (TextList generated_texts).

(** Cell 6. *)
Definition clear_gpu_memory : M unit :=
  _ <- call gc_collect E_gc_collect ;;
  _ <- call cuda_empty_cache E_cuda_empty_cache ;;
  available <- call cuda_is_available E_cuda_is_available ;;
  if (available : bool)
  then
    count <- call cuda_device_count E_cuda_device_count ;;
    for_do (range count) (fun i =>
      bytes <- call (cuda_memory_allocated i) (E_cuda_memory_allocated i) ;;
      line <- computed (report_line i bytes) ;;
      call (builtins_print line) (E_print line))
  else ret tt.

(** ** What the framework answers *)

(** The five calls of [generate_text] that come before [model.generate],
    all returned. *)
Definition prepared_events (tokenizer : Tokenizer) (prompt : string)
    (enc : BatchEncoding) (model : Model) (device : Device)
    (inputs : BatchEncoding) (input_ids : Tensor) (eos : pyval) : list event :=
  [E_tokenizer_call tokenizer prompt "pt" (inr enc);
   E_model_device model (inr device);
   E_encoding_to enc device (inr inputs);
   E_encoding_input_ids inputs (inr input_ids);
   E_tokenizer_eos_token_id tokenizer (inr eos)].

(** [decodes tokenizer h rows texts h']: from state [h],
    [tokenizer.decode(row, skip_special_tokens=True)] returns for each
    of [rows] in turn, giving [texts] and leaving state [h']. *)
Inductive decodes (tokenizer : Tokenizer)
    : hidden -> list Tensor -> list string -> hidden -> Prop :=
| decodes_nil h : decodes tokenizer h [] [] h
| decodes_cons h row text h1 rows texts h2 :
    tokenizer_decode tokenizer row true h = (inr text, h1) ->
    decodes tokenizer h1 rows texts h2 ->
    decodes tokenizer h (row :: rows) (text :: texts) h2.

(** The record of those decodes. *)
Definition decode_events (tokenizer : Tokenizer)
    (rows : list Tensor) (texts : list string) : list event :=
  map (fun p => E_tokenizer_decode tokenizer (fst p) true (inr (snd p)))
      (combine rows texts).

(** [reports h indices evs h']: from state [h], for each of [indices] in
    turn, [torch.cuda.memory_allocated(i)] returns a count that fits a
    [float] and [print] returns for the line made of it; [evs] are
    those calls and [h'] the state they leave. *)
Inductive reports : hidden -> list Z -> list event -> hidden -> Prop :=
| reports_nil h : reports h [] [] h
| reports_cons h i bytes h1 line h2 rest evs h3 :
    cuda_memory_allocated i h = (inr bytes, h1) ->
    report_line i bytes = inr line ->
    builtins_print line h1 = (inr tt, h2) ->
    reports h2 rest evs h3 ->
    reports h (i :: rest)
      (E_cuda_memory_allocated i (inr bytes) :: E_print line (inr tt) :: evs) h3.

End Notebook.

Notation "x <- m ;; k" := (bind m (fun x => k))
  (at level 100, m at next level, right associativity).

(** A parameter as given, or its default. *)
Notation "given 'or_else' d" :=
  (match given with Some v => v | None => d end)
  (at level 60, only parsing).

(** The framework [F] with another [model.generate] in place of its
    own. *)
Definition with_generate (F : Framework)
    (generate : @Model F -> @Tensor F -> generate_kwargs -> @hidden F ->
                outcome (list (@Tensor F)) * @hidden F) : Framework := {|
  hidden := @hidden F;
  Tokenizer := @Tokenizer F;
  Model := @Model F;
  Device := @Device F;
  BatchEncoding := @BatchEncoding F;
  Tensor := @Tensor F;
  AutoTokenizer_from_pretrained := @AutoTokenizer_from_pretrained F;
  AutoModelForCausalLM_from_pretrained := @AutoModelForCausalLM_from_pretrained F;
  tokenizer_call := @tokenizer_call F;
  model_device := @model_device F;
  encoding_to := @encoding_to F;
  encoding_input_ids := @encoding_input_ids F;
  tokenizer_eos_token_id := @tokenizer_eos_token_id F;
  model_generate := generate;
  tokenizer_decode := @tokenizer_decode F;
  object_eq_one := @object_eq_one F;
  gc_collect := @gc_collect F;
  cuda_empty_cache := @cuda_empty_cache F;
  cuda_is_available := @cuda_is_available F;
  cuda_device_count := @cuda_device_count F;
  cuda_memory_allocated := @cuda_memory_allocated F;
  builtins_print := @builtins_print F
|}.

(** Two programs, one on [with_generate F generate] and one on [F], that
    end with the same outcome in the same state, from every state. *)
Definition same_outcome {F : Framework} {generate} {A : Type}
    (m' : @M (with_generate F generate) A) (m : @M F A) : Prop :=
  forall h, fst (m' h) = fst (m h).

(** The parts of a run. *)
Definition value_of {F : Framework} {A : Type}
    (run : outcome A * hidden * list event) : outcome A := fst (fst run).

Definition state_of {F : Framework} {A : Type}
    (run : outcome A * hidden * list event) : hidden := snd (fst run).

Definition events_of {F : Framework} {A : Type}
    (run : outcome A * hidden * list event) : list event := snd run.

(** ** A framework to run the notebook on

    A stand-in for the libraries, small enough to evaluate: its state
    counts the external calls made so far, one chosen call can raise, and
    the number of accelerators, the memory in use on the first of them
    and the number of rows [model.generate] returns are set by the
    configuration. *)

Record stub_config : Type := StubConfig {
  fails_at : option nat;
  accelerators : Z;
  allocated : Z;
  rows_returned : option nat
}.

Definition stub_error : exn := Exn "RuntimeError" "stub framework failure".

(** The call numbered [n] raises when the configuration says so, and
    returns [x] otherwise. *)
Definition stub_call {X : Type} (cfg : stub_config) (x : X)
    : nat -> outcome X * nat :=
  fun n =>
    (match fails_at cfg with
     | Some k => if Nat.eqb k n then inl stub_error else inr x
     | None => inr x
     end, S n).

Definition stub_encode (prompt : string) : list Z :=
  map (fun a => Z.of_nat (Ascii.nat_of_ascii a)) (list_ascii_of_string prompt).

Definition stub_decode (row : list Z) : string :=
  string_of_list_ascii (map (fun z => Ascii.ascii_of_nat (Z.to_nat z)) row).

(** Row [i] is the prompt followed by the digit [i]. *)
Definition stub_rows (cfg : stub_config) (input_ids : list Z)
    (kwargs : generate_kwargs) : list (list Z) :=
  let asked :=
    match num_return_sequences kwargs with
    | PyInt z => Z.to_nat z
    | _ => 1%nat
    end in
  map (fun i => input_ids ++ [48 + Z.of_nat i])
      (seq 0 (default_arg asked (rows_returned cfg))).

(** Device [i] has [allocated * (i + 1)] bytes in use; an object of
    another class equals [1] when its identity is even. *)
Definition stub (cfg : stub_config) : Framework := {|
  hidden := nat;
  Tokenizer := string;
  Model := string;
  Device := string;
  BatchEncoding := list Z;
  Tensor := list Z;
  AutoTokenizer_from_pretrained := fun name => stub_call cfg name;
  AutoModelForCausalLM_from_pretrained := fun name _ _ _ => stub_call cfg name;
  tokenizer_call := fun _ prompt _ => stub_call cfg (stub_encode prompt);
  model_device := fun _ => stub_call cfg "cuda:0";
  encoding_to := fun enc _ => stub_call cfg enc;
  encoding_input_ids := fun inputs => stub_call cfg inputs;
  tokenizer_eos_token_id := fun _ => stub_call cfg (PyInt 128001);
  model_generate := fun _ input_ids kwargs =>
    stub_call cfg (stub_rows cfg input_ids kwargs);
  tokenizer_decode := fun _ row _ => stub_call cfg (stub_decode row);
  object_eq_one := fun o => stub_call cfg (N.even o);
  gc_collect := stub_call cfg 0;
  cuda_empty_cache := stub_call cfg tt;
  cuda_is_available := stub_call cfg (0 <? accelerators cfg);
  cuda_device_count := stub_call cfg (accelerators cfg);
  cuda_memory_allocated := fun i => stub_call cfg (allocated cfg * (i + 1));
  builtins_print := fun _ => stub_call cfg tt
|}.

(** All calls return; two accelerators, 1.5 GB in use on the first. *)
Definition healthy : stub_config := StubConfig None 2 1500000000 None.

(** All calls return, no accelerator. *)
Definition cpu_only : stub_config := StubConfig None 0 0 None.

(** The external call numbered [k] raises. *)
Definition failing (k : nat) : stub_config :=
  StubConfig (Some k) 2 1500000000 None.


(** [model.generate] returns no row. *)
Definition no_rows : stub_config := StubConfig None 2 1500000000 (Some 0%nat).

(** One accelerator, 1.5 GB in use. *)
Definition one_accelerator : stub_config := StubConfig None 1 1500000000 None.

(** One accelerator reporting more bytes than a [float] can hold. *)
Definition beyond_float : stub_config := StubConfig None 1 (2 ^ 1024) None.

(** The stand-in whose [model.generate] raises when asked for greedy
    decoding. *)
Definition refuse_greedy (model : string) (input_ids : list Z)
    (kwargs : generate_kwargs) (n : nat) : outcome (list (list Z)) * nat :=
  if do_sample kwargs
  then @model_generate (stub healthy) model input_ids kwargs n
  else (inl stub_error, n).

Definition no_greedy : Framework := with_generate (stub healthy) refuse_greedy.

(** Runs on the stand-in, from its initial state. *)

(** [generate_text("Hi", model, tokenizer)]. *)
Definition run_default :=
  generate_text (F := stub healthy) "Hi" "m" "t" None None None None 0%nat.

(** [generate_text("Hi", model, tokenizer, max_length=150,
    temperature=0.8, num_return_sequences=3)]. *)
Definition run_three :=
  generate_text (F := stub healthy) "Hi" "m" "t"
    (Some (PyInt 150)) (Some (PyFloat 0.8)) None (Some (PyInt 3)) 0%nat.

(** A string for [max_length], a negative [temperature] and [None] for
    [top_p], on a framework whose [model.generate] (the call numbered 5)
    raises. *)
Definition run_odd_parameters :=
  generate_text (F := stub (failing 5)) "Hi" "m" "t"
    (Some (PyStr "long")) (Some (PyFloat (-3))) (Some PyNone) None 0%nat.

(** [temperature=0], and [model.generate] raises. *)
Definition run_cold :=
  generate_text (F := stub (failing 5)) "Hi" "m" "t"
    None (Some (PyInt 0)) None None 0%nat.

(** The same call on the stand-in that refuses greedy decoding. *)
Definition run_no_greedy :=
  generate_text (F := no_greedy) "Hi" "m" "t"
    None (Some (PyInt 0)) None None 0%nat.


(** [num_return_sequences=1] on a framework that returns no row. *)
Definition run_no_rows :=
  generate_text (F := stub no_rows) "Hi" "m" "t" None None None
    (Some (PyInt 1)) 0%nat.

(** Three rows asked for, and the decode of the second (the call
    numbered 7) raises. *)
Definition run_second_decode_fails :=
  generate_text (F := stub (failing 7)) "Hi" "m" "t" None None None
    (Some (PyInt 3)) 0%nat.

(** The count is an object of another class, one that equals [1]. *)
Definition run_object_count :=
  generate_text (F := stub healthy) "Hi" "m" "t" None None None
    (Some (PyObject 4)) 0%nat.

(** [load_model()], also when the model (the call numbered 1) fails to
    load, and [clear_gpu_memory()], also when the byte count is beyond
    the range of [float]. *)
Definition run_load := load_model (F := stub healthy) None 0%nat.

Definition run_load_fails := load_model (F := stub (failing 1)) None 0%nat.

Definition run_clear_overflows := clear_gpu_memory (F := stub beyond_float) 0%nat.

Definition run_clear := clear_gpu_memory (F := stub healthy) 0%nat.

Definition run_clear_one := clear_gpu_memory (F := stub one_accelerator) 0%nat.

Definition run_clear_cpu := clear_gpu_memory (F := stub cpu_only) 0%nat.

(** * Properties *)

(** ** Running a program step by step *)

Section Steps.

Context {F : Framework}.

Lemma call_run {X : Type} (op : hidden -> outcome X * hidden) record h r h1 :
  op h = (r, h1) -> call op record h = (r, h1, [record r]).
Proof. unfold call. now intros ->. Qed.

Lemma bind_call_returned {X B : Type} (op : hidden -> outcome X * hidden)
    record (k : X -> M B) h x h1 r h2 t :
  op h = (inr x, h1) ->
  k x h1 = (r, h2, t) ->
  bind (call op record) k h = (r, h2, record (inr x) :: t).
Proof. unfold bind, call. now intros -> ->. Qed.

Lemma bind_call_raised {X B : Type} (op : hidden -> outcome X * hidden)
    record (k : X -> M B) h e h1 :
  op h = (inl e, h1) ->
  bind (call op record) k h = (inl e, h1, [record (inl e)]).
Proof. unfold bind, call. now intros ->. Qed.

Lemma bind_returned {A B : Type} (m : M A) (k : A -> M B) h a h1 t1 r h2 t2 :
  m h = (inr a, h1, t1) ->
  k a h1 = (r, h2, t2) ->
  bind m k h = (r, h2, t1 ++ t2).
Proof. unfold bind. now intros -> ->. Qed.

Lemma bind_raised {A B : Type} (m : M A) (k : A -> M B) h e h1 t1 :
  m h = (inl e, h1, t1) ->
  bind m k h = (inl e, h1, t1).
Proof. unfold bind. now intros ->. Qed.

Lemma bind_ret_l {A B : Type} (a : A) (k : A -> M B) h :
  bind (ret a) k h = k a h.
Proof. unfold bind, ret. now destruct (k a h) as [[r h2] t2]. Qed.

(** A step followed by steps that make no call. *)
Lemma bind_returned_silent {A B : Type} (m : M A) (k : A -> M B) h a h1 t1 r h2 :
  m h = (inr a, h1, t1) ->
  k a h1 = (r, h2, []) ->
  bind m k h = (r, h2, t1).
Proof.
  intros Hm Hk. rewrite (bind_returned _ _ _ _ _ _ _ _ _ Hm Hk).
  now rewrite app_nil_r.
Qed.

(** The list comprehension of [generate_text], when every decode
    returns. *)
Lemma decodes_run tokenizer h rows texts h' :
  decodes tokenizer h rows texts h' ->
  for_each rows (fun output =>
    call (tokenizer_decode tokenizer output true)
         (E_tokenizer_decode tokenizer output true)) h
  = (inr texts, h', decode_events tokenizer rows texts).
Proof.
  induction 1 as [h | h row text h1 rows texts h2 Hrow _ IH]; [reflexivity |].
  simpl. eapply bind_call_returned; [exact Hrow |].
  eapply bind_returned_silent; [exact IH | reflexivity].
Qed.

(** The comprehension when a decode raises after some returned. *)
Lemma decodes_then_raised tokenizer h done texts hk row e hk' todo :
  decodes tokenizer h done texts hk ->
  tokenizer_decode tokenizer row true hk = (inl e, hk') ->
  for_each (done ++ row :: todo) (fun output =>
    call (tokenizer_decode tokenizer output true)
         (E_tokenizer_decode tokenizer output true)) h
  = (inl e, hk',
     decode_events tokenizer done texts
       ++ [E_tokenizer_decode tokenizer row true (inl e)]).
Proof.
  intros Hdone Hrow.
  induction Hdone as [h | h row0 text h1 rows texts h2 Hrow0 _ IH]; simpl.
  - now apply bind_call_raised.
  - eapply bind_call_returned; [exact Hrow0 |].
    apply bind_raised. exact (IH Hrow).
Qed.

Lemma decodes_length tokenizer h rows texts h' :
  decodes tokenizer h rows texts h' -> length texts = length rows.
Proof. induction 1; simpl; congruence. Qed.

(** The report loop of [clear_gpu_memory], when every read fits and
    every line is printed. *)
Lemma reports_run h indices evs h' :
  reports h indices evs h' ->
  for_do indices (fun i =>
    bytes <- call (cuda_memory_allocated i) (E_cuda_memory_allocated i) ;;
    line <- computed (report_line i bytes) ;;
    call (builtins_print line) (E_print line)) h
  = (inr tt, h', evs).
Proof.
  induction 1 as [h | h i bytes h1 line h2 rest evs h3 Hread Hline Hprint _ IH];
    [reflexivity |].
  simpl.
  change (E_cuda_memory_allocated i (inr bytes) :: E_print line (inr tt) :: evs)
    with ([E_cuda_memory_allocated i (inr bytes); E_print line (inr tt)] ++ evs).
  eapply bind_returned; [| exact IH].
  eapply bind_call_returned; [exact Hread |].
  rewrite Hline. simpl.
  unfold bind, ret. simpl. now rewrite (call_run _ _ _ _ _ Hprint).
Qed.

End Steps.

(** A run whose remaining steps are left as they are. *)
Lemma run_eta {F : Framework} {A : Type} (run : outcome A * hidden * list event) :
  run = (value_of run, state_of run, events_of run).
Proof. now destruct run as [[r h] evs]. Qed.

(** Takes the step of an external call that hypothesis [H] says
    returned. *)
Ltac returned H := eapply bind_call_returned; [exact H |].

(** ** The text generator *)

Section Generation.

Context {F : Framework}.

Variables (prompt : string) (model : Model) (tokenizer : Tokenizer).
Variables (max_length temperature top_p : option pyval).

Section Encoded.

(** The prompt is tokenized, the encoding moved to the model's device
    and its [input_ids] read: four calls, each from the state the
    previous one left. *)
Variables (h h1 h2 h3 h4 : hidden).
Variables (enc : BatchEncoding) (device : Device).
Variables (inputs : BatchEncoding) (input_ids : Tensor).

Hypothesis tokenized : tokenizer_call tokenizer prompt "pt" h = (inr enc, h1).
Hypothesis located : model_device model h1 = (inr device, h2).
Hypothesis moved : encoding_to enc device h2 = (inr inputs, h3).
Hypothesis ids_read : encoding_input_ids inputs h3 = (inr input_ids, h4).

(** C5: the padding token given to [model.generate] is what
    [tokenizer.eos_token_id] answers.  [generate_text] reads it from the
    caller's tokenizer right after the input ids; when the read raises,
    the run ends there; when it returns [eos], [model.generate] is
    called with [pad_token_id=eos] and the run goes on from its
    answer. *)
Theorem generate_text_pads_with_eos (num_return_sequences : option pyval)
    answer h5 :
  tokenizer_eos_token_id tokenizer h4 = (answer, h5) ->
  match answer with
  | inl e =>
      generate_text prompt model tokenizer max_length temperature top_p
        num_return_sequences h
      = (inl e, h5,
         [E_tokenizer_call tokenizer prompt "pt" (inr enc);
          E_model_device model (inr device);
          E_encoding_to enc device (inr inputs);
          E_encoding_input_ids inputs (inr input_ids);
          E_tokenizer_eos_token_id tokenizer (inl e)])
  | inr eos =>
      let kwargs :=
        GenerateKwargs (max_length or_else PyInt 100)
          (temperature or_else PyFloat 0.7) true
          (top_p or_else PyFloat 0.9)
          (num_return_sequences or_else PyInt 1)
          eos in
      forall res h6,
        model_generate model input_ids kwargs h5 = (res, h6) ->
        match res with
        | inl e =>
            generate_text prompt model tokenizer max_length temperature top_p
              num_return_sequences h
            = (inl e, h6,
               prepared_events tokenizer prompt enc model device inputs
                 input_ids eos
               ++ [E_model_generate model input_ids kwargs (inl e)])
        | inr rows =>
            exists r h' evs,
              generate_text prompt model tokenizer max_length temperature top_p
                num_return_sequences h
              = (r, h',
                 prepared_events tokenizer prompt enc model device inputs
                   input_ids eos
                 ++ E_model_generate model input_ids kwargs (inr rows) :: evs)
        end
  end.
Proof.
  intros Heos. destruct answer as [e | eos].
  - unfold generate_text. cbv zeta.
    returned tokenized. returned located. returned moved. returned ids_read.
    now apply bind_call_raised.
  - intros kwargs res h6 Hgen. destruct res as [e | rows].
    + unfold generate_text, prepared_events. cbv zeta. cbn [app].
      returned tokenized. returned located. returned moved. returned ids_read.
      returned Heos. apply bind_call_raised. exact Hgen.
    + do 3 eexists.
      unfold generate_text, prepared_events. cbv zeta. cbn [app].
      returned tokenized. returned located. returned moved. returned ids_read.
      returned Heos. returned Hgen. apply run_eta.
Qed.

Section Prepared.

(** The end-of-sequence token is read as well. *)
Variables (eos : pyval) (h5 : hidden).

Hypothesis eos_read : tokenizer_eos_token_id tokenizer h4 = (inr eos, h5).

(** C3: the defaults are [max_length=100], [temperature=0.7],
    [top_p=0.9] and [num_return_sequences=1], and [model.generate] is
    called with the four values as the caller gave them, whatever
    object each is: the notebook raises nothing before the call, and the
    run goes on from what [model.generate] answers to exactly these
    keyword arguments. *)
Theorem generate_text_passes_parameters (num_return_sequences : option pyval)
    res h6 :
  let kwargs :=
    GenerateKwargs
      (match max_length with Some given => given | None => PyInt 100 end)
      (match temperature with Some given => given | None => PyFloat 0.7 end)
      true
      (match top_p with Some given => given | None => PyFloat 0.9 end)
      (match num_return_sequences with Some given => given | None => PyInt 1 end)
      eos in
  model_generate model input_ids kwargs h5 = (res, h6) ->
  match res with
  | inl e =>
      generate_text prompt model tokenizer max_length temperature top_p
        num_return_sequences h
      = (inl e, h6,
         prepared_events tokenizer prompt enc model device inputs input_ids eos
         ++ [E_model_generate model input_ids kwargs (inl e)])
  | inr rows =>
      exists r h' evs,
        generate_text prompt model tokenizer max_length temperature top_p
          num_return_sequences h
        = (r, h',
           prepared_events tokenizer prompt enc model device inputs input_ids eos
           ++ E_model_generate model input_ids kwargs (inr rows) :: evs)
  end.
Proof.
  intros kwargs Hgen. destruct res as [e | rows].
  - unfold generate_text, prepared_events. cbv zeta. cbn [app].
    returned tokenized. returned located. returned moved. returned ids_read.
    returned eos_read. apply bind_call_raised. exact Hgen.
  - do 3 eexists.
    unfold generate_text, prepared_events. cbv zeta. cbn [app].
    returned tokenized. returned located. returned moved. returned ids_read.
    returned eos_read. returned Hgen. apply run_eta.
Qed.

(** C1: with [num_return_sequences=1], given or by default,
    [generate_text] returns a single string, not a list: the text
    [tokenizer.decode] made of the first row [model.generate] returned
    (and every row is decoded). *)
Theorem generate_text_single (num_return_sequences : option pyval)
    row rows h6 text texts h7 :
  num_return_sequences = None \/ num_return_sequences = Some (PyInt 1) ->
  let kwargs :=
    GenerateKwargs (max_length or_else PyInt 100)
      (temperature or_else PyFloat 0.7) true
      (top_p or_else PyFloat 0.9) (PyInt 1) eos in
  model_generate model input_ids kwargs h5 = (inr (row :: rows), h6) ->
  decodes tokenizer h6 (row :: rows) (text :: texts) h7 ->
  generate_text prompt model tokenizer max_length temperature top_p
    num_return_sequences h
  = (inr (OneText text), h7,
     prepared_events tokenizer prompt enc model device inputs input_ids eos
     ++ E_model_generate model input_ids kwargs (inr (row :: rows))
     :: decode_events tokenizer (row :: rows) (text :: texts)).
Proof.
  intros Hone kwargs Hgen Hdec.
  assert (Hcount : default_arg (PyInt 1) num_return_sequences = PyInt 1)
    by (destruct Hone as [-> | ->]; reflexivity).
  unfold generate_text, prepared_events. cbv zeta. cbn [app].
  rewrite Hcount.
  returned tokenized. returned located. returned moved. returned ids_read.
  returned eos_read. returned Hgen.
  eapply bind_returned_silent; [apply decodes_run; exact Hdec | reflexivity].
Qed.

(** C2: with [num_return_sequences=N] for an integer [N > 1],
    [generate_text] returns the list of the [N] strings
    [tokenizer.decode] made of the [N] rows [model.generate] returned,
    in the order of the rows. *)
Theorem generate_text_many (N : Z) rows h6 texts h7 :
  1 < N ->
  let kwargs :=
    GenerateKwargs (max_length or_else PyInt 100)
      (temperature or_else PyFloat 0.7) true
      (top_p or_else PyFloat 0.9) (PyInt N) eos in
  model_generate model input_ids kwargs h5 = (inr rows, h6) ->
  Z.of_nat (length rows) = N ->
  decodes tokenizer h6 rows texts h7 ->
  generate_text prompt model tokenizer max_length temperature top_p
    (Some (PyInt N)) h
  = (inr (TextList texts), h7,
     prepared_events tokenizer prompt enc model device inputs input_ids eos
     ++ E_model_generate model input_ids kwargs (inr rows)
     :: decode_events tokenizer rows texts)
  /\ Z.of_nat (length texts) = N.
Proof.
  intros HN kwargs Hgen Hrows Hdec. split.
  - unfold generate_text, prepared_events. cbv zeta. cbn [app default_arg].
    returned tokenized. returned located. returned moved. returned ids_read.
    returned eos_read. returned Hgen.
    eapply bind_returned_silent; [apply decodes_run; exact Hdec |].
    unfold bind, eq_one, ret.
    destruct (Z.eqb_spec N 1) as [-> | _]; [lia | reflexivity].
  - now rewrite (decodes_length _ _ _ _ _ Hdec).
Qed.


End Prepared.

End Encoded.

End Generation.

Section Sampling.

Context {F : Framework}.

Variable greedy :
  Model -> Tensor -> generate_kwargs -> hidden -> outcome (list Tensor) * hidden.

Lemma same_ret {A : Type} (a : A) :
  same_outcome (ret (F := with_generate F greedy) a) (ret a).
Proof. intros h. reflexivity. Qed.

Lemma same_throw {A : Type} (e : exn) :
  same_outcome (throw (F := with_generate F greedy) (A := A) e) (throw e).
Proof. intros h. reflexivity. Qed.

Lemma same_call {X : Type} (op' op : hidden -> outcome X * hidden)
    (record' : outcome X -> @event (with_generate F greedy)) (record : outcome X -> @event F) :
  (forall h, op' h = op h) ->
  same_outcome (call (F := with_generate F greedy) op' record') (call op record).
Proof.
  intros Hop h. unfold call. rewrite Hop. now destruct (op h).
Qed.

Lemma same_bind {A B : Type} (m' : @M (with_generate F greedy) A) (m : @M F A)
    (k' : A -> @M (with_generate F greedy) B) (k : A -> @M F B) :
  same_outcome m' m ->
  (forall a, same_outcome (k' a) (k a)) ->
  same_outcome (bind (F := with_generate F greedy) m' k') (bind m k).
Proof.
  intros Hm Hk h. unfold bind. specialize (Hm h).
  destruct (m' h) as [[r1 s1] t1]. destruct (m h) as [[r2 s2] t2].
  simpl in Hm. injection Hm as -> ->.
  destruct r2 as [e | a]; [reflexivity |].
  specialize (Hk a s2).
  destruct (k' a s2) as [[r3 s3] t3]. destruct (k a s2) as [[r4 s4] t4].
  simpl in Hk. now injection Hk as -> ->.
Qed.

Lemma same_for_each {A B : Type} (xs : list A)
    (body' : A -> @M (with_generate F greedy) B) (body : A -> @M F B) :
  (forall x, same_outcome (body' x) (body x)) ->
  same_outcome (for_each (F := with_generate F greedy) xs body') (for_each xs body).
Proof.
  intros Hbody. induction xs as [| x xs IH]; simpl.
  - apply same_ret.
  - apply same_bind; [apply Hbody |]. intros y.
    apply same_bind; [exact IH |]. intros ys. apply same_ret.
Qed.

Lemma same_eq_one (v : pyval) :
  same_outcome (eq_one (F := with_generate F greedy) v) (eq_one v).
Proof.
  destruct v; simpl; try apply same_ret. now apply same_call.
Qed.

Lemma same_first_item {A : Type} (xs : list A) :
  same_outcome (first_item (F := with_generate F greedy) xs) (first_item xs).
Proof. destruct xs; [apply same_throw | apply same_ret]. Qed.

(** With another [model.generate] that answers the same whenever
    sampling is asked for, [generate_text] ends with the same outcome in
    the same state. *)
Lemma generate_text_with_generate :
  (forall model input_ids kwargs h,
     do_sample kwargs = true ->
     greedy model input_ids kwargs h = model_generate model input_ids kwargs h) ->
  forall prompt model tokenizer max_length temperature top_p
         num_return_sequences,
    same_outcome
      (generate_text (F := with_generate F greedy) prompt model tokenizer
         max_length temperature top_p num_return_sequences)
      (generate_text (F := F) prompt model tokenizer
         max_length temperature top_p num_return_sequences).
Proof.
  intros Hsame prompt model tokenizer ml t tp n.
  unfold generate_text. cbv zeta.
  do 5 (apply same_bind; [now apply same_call | intros ?]).
  apply same_bind; [apply same_call; intros h; now apply Hsame | intros rows].
  apply same_bind;
    [apply same_for_each; intros row; now apply same_call | intros texts].
  apply same_bind; [apply same_eq_one | intros [|]].
  - apply same_bind; [apply same_first_item | intros text; apply same_ret].
  - apply same_ret.
Qed.

End Sampling.

(** C8: whatever temperature the caller gives, [model.generate] is
    called with [do_sample=True]: the run ends with what it raises for
    these keyword arguments, and what [model.generate] would answer to a
    request for greedy decoding has no part in the outcome or the state
    of any run. *)
Theorem generate_text_samples {F : Framework} :
  (forall prompt model tokenizer max_length temperature top_p
          num_return_sequences
          h enc h1 device h2 inputs h3 input_ids h4 eos h5 e h6,
     tokenizer_call tokenizer prompt "pt" h = (inr enc, h1) ->
     model_device model h1 = (inr device, h2) ->
     encoding_to enc device h2 = (inr inputs, h3) ->
     encoding_input_ids inputs h3 = (inr input_ids, h4) ->
     tokenizer_eos_token_id tokenizer h4 = (inr eos, h5) ->
     let kwargs :=
       {| max_length := max_length or_else PyInt 100;
          temperature := temperature or_else PyFloat 0.7;
          do_sample := true;
          top_p := top_p or_else PyFloat 0.9;
          num_return_sequences := num_return_sequences or_else PyInt 1;
          pad_token_id := eos |} in
     model_generate model input_ids kwargs h5 = (inl e, h6) ->
     generate_text prompt model tokenizer max_length temperature top_p
       num_return_sequences h
     = (inl e, h6,
        prepared_events tokenizer prompt enc model device inputs input_ids eos
        ++ [E_model_generate model input_ids kwargs (inl e)])) /\
  (forall greedy,
     (forall model input_ids kwargs h,
        do_sample kwargs = true ->
        greedy model input_ids kwargs h
        = model_generate model input_ids kwargs h) ->
     forall prompt model tokenizer max_length temperature top_p
            num_return_sequences h,
       fst (generate_text (F := with_generate F greedy) prompt model tokenizer
              max_length temperature top_p num_return_sequences h)
       = fst (generate_text (F := F) prompt model tokenizer
                max_length temperature top_p num_return_sequences h)).
Proof.
  split.
  - intros prompt model tokenizer ml t tp n
           h enc h1 device h2 inputs h3 input_ids h4 eos h5 e h6
           Htok Hdev Hto Hids Heos kwargs Hgen.
    unfold generate_text, prepared_events. cbv zeta. cbn [app].
    returned Htok. returned Hdev. returned Hto. returned Hids. returned Heos.
    apply bind_call_raised. exact Hgen.
  - intros greedy Hsame prompt model tokenizer ml t tp n h.
    now apply generate_text_with_generate.
Qed.

(** ** The model loader *)

(** C6: given an identifier, [load_model] asks
    [AutoTokenizer.from_pretrained] and
    [AutoModelForCausalLM.from_pretrained] for that same identifier and
    returns the pair of the model and the tokenizer they answer; left
    out, the identifier is
    ["deepseek-ai/DeepSeek-R1-Distill-Llama-70B"]. *)
Theorem load_model_pair {F : Framework} (model_name : option string)
    h tokenizer h1 model h2 :
  let name :=
    match model_name with
    | Some given => given
    | None => "deepseek-ai/DeepSeek-R1-Distill-Llama-70B"
    end in
  AutoTokenizer_from_pretrained name h = (inr tokenizer, h1) ->
  AutoModelForCausalLM_from_pretrained name float16 "auto" true h1
  = (inr model, h2) ->
  load_model model_name h
  = (inr (model, tokenizer), h2,
     [E_AutoTokenizer_from_pretrained name (inr tokenizer);
      E_AutoModelForCausalLM_from_pretrained name float16 "auto" true
        (inr model)]).
Proof.
  intros name Htok Hmodel. unfold load_model. cbv zeta.
  change (default_arg "deepseek-ai/DeepSeek-R1-Distill-Llama-70B" model_name)
    with name.
  returned Htok. returned Hmodel. reflexivity.
Qed.

(** ** Errors of the framework *)

(** C7: an exception raised by an external call of [load_model] or
    [generate_text] ends the run with that same exception, in the state
    the raising call left, with that call last on record: it is not
    caught, not replaced, and no call is made after it.  One case per
    external call: the two of [load_model]; the six of [generate_text]
    up to [model.generate], [tokenizer.decode] at any row, and the
    comparison with [1] that a count of another class answers. *)
Theorem framework_errors_propagate {F : Framework} :
  (forall model_name h,
     let name :=
       model_name or_else "deepseek-ai/DeepSeek-R1-Distill-Llama-70B" in
     (forall e h1,
        AutoTokenizer_from_pretrained name h = (inl e, h1) ->
        load_model model_name h
        = (inl e, h1, [E_AutoTokenizer_from_pretrained name (inl e)])) /\
     (forall tokenizer h1 e h2,
        AutoTokenizer_from_pretrained name h = (inr tokenizer, h1) ->
        AutoModelForCausalLM_from_pretrained name float16 "auto" true h1
        = (inl e, h2) ->
        load_model model_name h
        = (inl e, h2,
           [E_AutoTokenizer_from_pretrained name (inr tokenizer);
            E_AutoModelForCausalLM_from_pretrained name float16 "auto" true
              (inl e)]))) /\
  (forall prompt model tokenizer max_length temperature top_p
          num_return_sequences h,
     let run :=
       generate_text prompt model tokenizer max_length temperature top_p
         num_return_sequences h in
     (forall e h1,
        tokenizer_call tokenizer prompt "pt" h = (inl e, h1) ->
        run = (inl e, h1, [E_tokenizer_call tokenizer prompt "pt" (inl e)])) /\
     (forall enc h1,
        tokenizer_call tokenizer prompt "pt" h = (inr enc, h1) ->
        (forall e h2,
           model_device model h1 = (inl e, h2) ->
           run = (inl e, h2,
                  [E_tokenizer_call tokenizer prompt "pt" (inr enc);
                   E_model_device model (inl e)])) /\
        (forall device h2,
           model_device model h1 = (inr device, h2) ->
           (forall e h3,
              encoding_to enc device h2 = (inl e, h3) ->
              run = (inl e, h3,
                     [E_tokenizer_call tokenizer prompt "pt" (inr enc);
                      E_model_device model (inr device);
                      E_encoding_to enc device (inl e)])) /\
           (forall inputs h3,
              encoding_to enc device h2 = (inr inputs, h3) ->
              (forall e h4,
                 encoding_input_ids inputs h3 = (inl e, h4) ->
                 run = (inl e, h4,
                        [E_tokenizer_call tokenizer prompt "pt" (inr enc);
                         E_model_device model (inr device);
                         E_encoding_to enc device (inr inputs);
                         E_encoding_input_ids inputs (inl e)])) /\
              (forall input_ids h4,
                 encoding_input_ids inputs h3 = (inr input_ids, h4) ->
                 (forall e h5,
                    tokenizer_eos_token_id tokenizer h4 = (inl e, h5) ->
                    run = (inl e, h5,
                           [E_tokenizer_call tokenizer prompt "pt" (inr enc);
                            E_model_device model (inr device);
                            E_encoding_to enc device (inr inputs);
                            E_encoding_input_ids inputs (inr input_ids);
                            E_tokenizer_eos_token_id tokenizer (inl e)])) /\
                 (forall eos h5,
                    tokenizer_eos_token_id tokenizer h4 = (inr eos, h5) ->
                    let kwargs :=
                      GenerateKwargs (max_length or_else PyInt 100)
                        (temperature or_else PyFloat 0.7) true
                        (top_p or_else PyFloat 0.9)
                        (num_return_sequences or_else PyInt 1) eos in
                    let prepared :=
                      prepared_events tokenizer prompt enc model device inputs
                        input_ids eos in
                    (forall e h6,
                       model_generate model input_ids kwargs h5 = (inl e, h6) ->
                       run = (inl e, h6,
                              prepared
                              ++ [E_model_generate model input_ids kwargs
                                    (inl e)])) /\
                    (forall decoded row rest h6 texts h7 e h8,
                       model_generate model input_ids kwargs h5
                       = (inr (decoded ++ row :: rest), h6) ->
                       decodes tokenizer h6 decoded texts h7 ->
                       tokenizer_decode tokenizer row true h7 = (inl e, h8) ->
                       run = (inl e, h8,
                              prepared
                              ++ E_model_generate model input_ids kwargs
                                   (inr (decoded ++ row :: rest))
                              :: decode_events tokenizer decoded texts
                              ++ [E_tokenizer_decode tokenizer row true
                                    (inl e)])) /\
                    (forall o rows h6 texts h7 e h8,
                       num_return_sequences = Some (PyObject o) ->
                       model_generate model input_ids kwargs h5
                       = (inr rows, h6) ->
                       decodes tokenizer h6 rows texts h7 ->
                       object_eq_one o h7 = (inl e, h8) ->
                       run = (inl e, h8,
                              prepared
                              ++ E_model_generate model input_ids kwargs
                                   (inr rows)
                              :: decode_events tokenizer rows texts
                              ++ [E_object_eq_one o (inl e)])))))))).
Proof.
  split.
  - intros model_name h name.
    assert (Hname :
              default_arg "deepseek-ai/DeepSeek-R1-Distill-Llama-70B" model_name
              = name) by reflexivity.
    split.
    + intros e h1 Htok. unfold load_model. cbv zeta. rewrite Hname.
      now apply bind_call_raised.
    + intros tokenizer h1 e h2 Htok Hmodel.
      unfold load_model. cbv zeta. rewrite Hname.
      returned Htok. now apply bind_call_raised.
  - intros prompt model tokenizer ml t tp n h run.
    unfold run, generate_text. cbv zeta.
    split; [intros e h1 Htok; now apply bind_call_raised |].
    intros enc h1 Htok.
    split; [intros e h2 Hdev; returned Htok; now apply bind_call_raised |].
    intros device h2 Hdev.
    split; [intros e h3 Hto; returned Htok; returned Hdev;
            now apply bind_call_raised |].
    intros inputs h3 Hto.
    split; [intros e h4 Hids; returned Htok; returned Hdev; returned Hto;
            now apply bind_call_raised |].
    intros input_ids h4 Hids.
    split; [intros e h5 Heos; returned Htok; returned Hdev; returned Hto;
            returned Hids; now apply bind_call_raised |].
    intros eos h5 Heos.
    unfold prepared_events. cbn [app].
    split; [| split].
    + intros e h6 Hgen.
      returned Htok. returned Hdev. returned Hto. returned Hids. returned Heos.
      apply bind_call_raised. exact Hgen.
    + intros decoded row rest h6 texts h7 e h8 Hgen Hdec Hrow.
      returned Htok. returned Hdev. returned Hto. returned Hids. returned Heos.
      returned Hgen. apply bind_raised.
      exact (decodes_then_raised _ _ _ _ _ _ _ _ _ Hdec Hrow).
    + intros o rows h6 texts h7 e h8 -> Hgen Hdec Hanswer.
      returned Htok. returned Hdev. returned Hto. returned Hids. returned Heos.
      returned Hgen.
      eapply bind_returned; [apply decodes_run; exact Hdec |].
      now apply bind_call_raised.
Qed.

(** ** The memory reclaimer *)

Section Reclaimer.

Context {F : Framework}.

(** [range(count)] is [0, 1, ..., count - 1]: the first [k] indices,
    then [k], then the rest. *)
Lemma range_split count k :
  (k < Z.to_nat count)%nat ->
  range count
  = map Z.of_nat (seq 0 k)
    ++ Z.of_nat k :: map Z.of_nat (seq (S k) (Z.to_nat count - S k)).
Proof.
  intros Hk. unfold range.
  replace (Z.to_nat count) with (k + S (Z.to_nat count - S k))%nat at 1 by lia.
  rewrite seq_app, map_app. reflexivity.
Qed.

(** The report loop when one pass ends with an exception after some
    passes went through. *)
Lemma reports_then_raised h reported evs hk i rest e hk' last :
  reports h reported evs hk ->
  (bytes <- call (cuda_memory_allocated i) (E_cuda_memory_allocated i) ;;
   line <- computed (report_line i bytes) ;;
   call (builtins_print line) (E_print line)) hk = (inl e, hk', last) ->
  for_do (reported ++ i :: rest) (fun i =>
    bytes <- call (cuda_memory_allocated i) (E_cuda_memory_allocated i) ;;
    line <- computed (report_line i bytes) ;;
    call (builtins_print line) (E_print line)) h
  = (inl e, hk', evs ++ last).
Proof.
  intros Hdone Hpass.
  induction Hdone as [h | h j bytes h1 line h2 done evs h3 Hread Hline Hprint _ IH];
    simpl.
  - now apply bind_raised.
  - change (E_cuda_memory_allocated j (inr bytes) :: E_print line (inr tt)
              :: evs ++ last)
      with ([E_cuda_memory_allocated j (inr bytes); E_print line (inr tt)]
              ++ (evs ++ last)).
    eapply bind_returned; [| exact (IH Hpass)].
    returned Hread. rewrite Hline. simpl.
    unfold bind, ret. simpl. now rewrite (call_run _ _ _ _ _ Hprint).
Qed.

(** C4: with no accelerator ([torch.cuda.is_available()] is [False]),
    and collection and cache clearing succeeding as the libraries
    promise, [clear_gpu_memory] does not raise and reports nothing: it
    makes its three calls and returns. *)
Theorem clear_gpu_memory_no_accelerator h :
  (forall h0, exists z h1, gc_collect h0 = (inr z, h1)) ->
  (forall h0, exists h1, cuda_empty_cache h0 = (inr tt, h1)) ->
  (forall h0, exists h1, cuda_is_available h0 = (inr false, h1)) ->
  exists z h',
    clear_gpu_memory h =
      (inr tt, h',
       [E_gc_collect (inr z); E_cuda_empty_cache (inr tt);
        E_cuda_is_available (inr false)]).
Proof.
  intros Hgc Hcache Havail.
  destruct (Hgc h) as (z & h1 & E1).
  destruct (Hcache h1) as (h2 & E2).
  destruct (Havail h2) as (h3 & E3).
  exists z, h3. unfold clear_gpu_memory, bind, call.
  rewrite E1, E2, E3. reflexivity.
Qed.

(** C10: [clear_gpu_memory] calls [gc.collect()] and then
    [torch.cuda.empty_cache()] before it asks whether an accelerator is
    there, so on every run: an exception of either ends the run at that
    call, and once both returned the run goes through their states
    whatever [torch.cuda.is_available()] answers.  Only the report
    depends on the answer: on [False] the run returns after the three
    calls; on [True] it reads the device count and, for the devices
    [0, 1, ..., count - 1] in turn, the memory in use, and prints a line
    for each. *)
Theorem clear_gpu_memory_calls h :
  (forall e h1,
     gc_collect h = (inl e, h1) ->
     clear_gpu_memory h = (inl e, h1, [E_gc_collect (inl e)])) /\
  (forall z h1,
     gc_collect h = (inr z, h1) ->
     (forall e h2,
        cuda_empty_cache h1 = (inl e, h2) ->
        clear_gpu_memory h
        = (inl e, h2, [E_gc_collect (inr z); E_cuda_empty_cache (inl e)])) /\
     (forall u h2,
        cuda_empty_cache h1 = (inr u, h2) ->
        (forall h3,
           cuda_is_available h2 = (inr false, h3) ->
           clear_gpu_memory h
           = (inr tt, h3,
              [E_gc_collect (inr z); E_cuda_empty_cache (inr u);
               E_cuda_is_available (inr false)])) /\
        (forall h3 count h4 evs h5,
           cuda_is_available h2 = (inr true, h3) ->
           cuda_device_count h3 = (inr count, h4) ->
           reports h4 (map Z.of_nat (seq 0 (Z.to_nat count))) evs h5 ->
           clear_gpu_memory h
           = (inr tt, h5,
              [E_gc_collect (inr z); E_cuda_empty_cache (inr u);
               E_cuda_is_available (inr true);
               E_cuda_device_count (inr count)] ++ evs)))).
Proof.
  unfold clear_gpu_memory.
  split; [intros e h1 Hgc; now apply bind_call_raised |].
  intros z h1 Hgc.
  split; [intros e h2 Hcache; returned Hgc; now apply bind_call_raised |].
  intros u h2 Hcache. split.
  - intros h3 Havail. returned Hgc. returned Hcache. returned Havail.
    reflexivity.
  - intros h3 count h4 evs h5 Havail Hcount Hreports. cbn [app].
    returned Hgc. returned Hcache. returned Havail. returned Hcount.
    exact (reports_run _ _ _ _ Hreports).
Qed.

(** What [report_line] can raise. *)
Lemma report_line_raises i bytes e :
  report_line i bytes = inl e -> e = OverflowError.
Proof.
  unfold report_line, float_of_int.
  destruct (binary_normalize prec emax bytes 0 false); congruence.
Qed.

(** X11: the other ways [clear_gpu_memory] ends with an exception, each
    time with the exception as raised, in the state the last call left
    and with the lines of the devices before on record: when
    [torch.cuda.is_available()] or [torch.cuda.device_count()] raises;
    and, after the devices [0, ..., k - 1] were reported, for device
    [k < count]: when [torch.cuda.memory_allocated(k)] raises, when the
    byte count it returns is beyond the range of [float]
    ([OverflowError] from the division by [1e9], before anything is
    printed for that device), or when [print] raises. *)
Theorem clear_gpu_memory_errors h z h1 u h2 :
  gc_collect h = (inr z, h1) ->
  cuda_empty_cache h1 = (inr u, h2) ->
  (forall e h3,
     cuda_is_available h2 = (inl e, h3) ->
     clear_gpu_memory h
     = (inl e, h3,
        [E_gc_collect (inr z); E_cuda_empty_cache (inr u);
         E_cuda_is_available (inl e)])) /\
  (forall h3,
     cuda_is_available h2 = (inr true, h3) ->
     (forall e h4,
        cuda_device_count h3 = (inl e, h4) ->
        clear_gpu_memory h
        = (inl e, h4,
           [E_gc_collect (inr z); E_cuda_empty_cache (inr u);
            E_cuda_is_available (inr true); E_cuda_device_count (inl e)])) /\
     (forall count h4 k evs h5,
        cuda_device_count h3 = (inr count, h4) ->
        (k < Z.to_nat count)%nat ->
        reports h4 (map Z.of_nat (seq 0 k)) evs h5 ->
        let i := Z.of_nat k in
        let before :=
          [E_gc_collect (inr z); E_cuda_empty_cache (inr u);
           E_cuda_is_available (inr true); E_cuda_device_count (inr count)]
          ++ evs in
        (forall e h6,
           cuda_memory_allocated i h5 = (inl e, h6) ->
           clear_gpu_memory h
           = (inl e, h6, before ++ [E_cuda_memory_allocated i (inl e)])) /\
        (forall bytes h6,
           cuda_memory_allocated i h5 = (inr bytes, h6) ->
           (forall e,
              report_line i bytes = inl e ->
              e = OverflowError /\
              clear_gpu_memory h
              = (inl OverflowError, h6,
                 before ++ [E_cuda_memory_allocated i (inr bytes)])) /\
           (forall line e h7,
              report_line i bytes = inr line ->
              builtins_print line h6 = (inl e, h7) ->
              clear_gpu_memory h
              = (inl e, h7,
                 before ++ [E_cuda_memory_allocated i (inr bytes);
                            E_print line (inl e)]))))).
Proof.
  intros Hgc Hcache.
  split; [intros e h3 Havail; unfold clear_gpu_memory;
          returned Hgc; returned Hcache; now apply bind_call_raised |].
  intros h3 Havail.
  split; [intros e h4 Hcount; unfold clear_gpu_memory;
          returned Hgc; returned Hcache; returned Havail;
          now apply bind_call_raised |].
  intros count h4 k evs h5 Hcount Hk Hreports i before.
  assert (Hloop : forall e h' last,
             (bytes <- call (cuda_memory_allocated i) (E_cuda_memory_allocated i) ;;
              line <- computed (report_line i bytes) ;;
              call (builtins_print line) (E_print line)) h5 = (inl e, h', last) ->
             (_ <- call gc_collect E_gc_collect ;;
              _ <- call cuda_empty_cache E_cuda_empty_cache ;;
              available <- call cuda_is_available E_cuda_is_available ;;
              if (available : bool)
              then
                count <- call cuda_device_count E_cuda_device_count ;;
                for_do (range count) (fun i =>
                  bytes <- call (cuda_memory_allocated i)
                                (E_cuda_memory_allocated i) ;;
                  line <- computed (report_line i bytes) ;;
                  call (builtins_print line) (E_print line))
              else ret tt) h = (inl e, h', before ++ last)).
  { intros e h' last Hpass. unfold before. rewrite <- app_assoc. cbn [app].
    returned Hgc. returned Hcache. returned Havail. returned Hcount.
    rewrite (range_split _ _ Hk).
    exact (reports_then_raised _ _ _ _ _ _ _ _ _ Hreports Hpass). }
  split.
  - intros e h6 Hread. apply Hloop. now apply bind_call_raised.
  - intros bytes h6 Hread. split.
    + intros e Hline. pose proof (report_line_raises _ _ _ Hline) as ->.
      split; [reflexivity |]. apply Hloop.
      returned Hread. rewrite Hline. reflexivity.
    + intros line e h7 Hline Hprint. apply Hloop.
      returned Hread. rewrite Hline. simpl.
      unfold bind, ret. simpl. now rewrite (call_run _ _ _ _ _ Hprint).
Qed.

(** X9: the report with an accelerator present.  When
    [torch.cuda.device_count()] answers 0 or less, nothing is read or
    printed and [clear_gpu_memory] returns after its four calls.  When it
    answers 1, the memory in use is read for device 0, once, and one
    line is printed: the one made of the byte count that read
    returned. *)
Theorem clear_gpu_memory_report h z h1 u h2 h3 count h4 :
  gc_collect h = (inr z, h1) ->
  cuda_empty_cache h1 = (inr u, h2) ->
  cuda_is_available h2 = (inr true, h3) ->
  cuda_device_count h3 = (inr count, h4) ->
  let before :=
    [E_gc_collect (inr z); E_cuda_empty_cache (inr u);
     E_cuda_is_available (inr true); E_cuda_device_count (inr count)] in
  (count <= 0 -> clear_gpu_memory h = (inr tt, h4, before)) /\
  (count = 1 ->
   forall bytes h5 line h6,
     cuda_memory_allocated 0 h4 = (inr bytes, h5) ->
     report_line 0 bytes = inr line ->
     builtins_print line h5 = (inr tt, h6) ->
     clear_gpu_memory h
     = (inr tt, h6,
        before ++ [E_cuda_memory_allocated 0 (inr bytes);
                   E_print line (inr tt)])).
Proof.
  intros Hgc Hcache Havail Hcount before. unfold before. split.
  - intros Hnone. unfold clear_gpu_memory.
    returned Hgc. returned Hcache. returned Havail. returned Hcount.
    unfold range. replace (Z.to_nat count) with 0%nat by lia. reflexivity.
  - intros Hone bytes h5 line h6 Hread Hline Hprint. cbn [app].
    unfold clear_gpu_memory.
    returned Hgc. returned Hcache. returned Havail. returned Hcount.
    rewrite Hone.
    exact (reports_run _ _ _ _
             (reports_cons _ _ _ _ _ _ _ _ _ Hread Hline Hprint
                (reports_nil _))).
Qed.

End Reclaimer.

(** ** Counts that are not integers *)

Section Counts.

Context {F : Framework}.

Variables (prompt : string) (model : Model) (tokenizer : Tokenizer).
Variables (max_length temperature top_p : option pyval) (count : pyval).
Variables (h h1 h2 h3 h4 h5 h6 h7 : hidden).
Variables (enc : BatchEncoding) (device : Device).
Variables (inputs : BatchEncoding) (input_ids : Tensor) (eos : pyval).
Variables (rows : list Tensor) (texts : list string).

Hypothesis tokenized : tokenizer_call tokenizer prompt "pt" h = (inr enc, h1).
Hypothesis located : model_device model h1 = (inr device, h2).
Hypothesis moved : encoding_to enc device h2 = (inr inputs, h3).
Hypothesis ids_read : encoding_input_ids inputs h3 = (inr input_ids, h4).
Hypothesis eos_read : tokenizer_eos_token_id tokenizer h4 = (inr eos, h5).
Hypothesis rows_generated :
  model_generate model input_ids
    (GenerateKwargs (max_length or_else PyInt 100)
       (temperature or_else PyFloat 0.7) true
       (top_p or_else PyFloat 0.9) count eos) h5
  = (inr rows, h6).
Hypothesis rows_decoded : decodes tokenizer h6 rows texts h7.

(** X6: what [generate_text] returns when [num_return_sequences] is
    given and is not an [int].  [True] and a [float] equal to [1.0]
    count as [1]: the value is the first text ([IndexError] without
    one).  [False], any other [float], [None] and a [str] give the whole
    list.  For an object of another class its own comparison with [1]
    is asked after the rows are decoded and decides; when that
    comparison raises, the run ends with its exception. *)
Theorem generate_text_count_not_int :
  let run :=
    generate_text prompt model tokenizer max_length temperature top_p
      (Some count) h in
  let record :=
    prepared_events tokenizer prompt enc model device inputs input_ids eos
    ++ E_model_generate model input_ids
         (GenerateKwargs (max_length or_else PyInt 100)
            (temperature or_else PyFloat 0.7) true
            (top_p or_else PyFloat 0.9) count eos)
         (inr rows)
    :: decode_events tokenizer rows texts in
  let first : outcome generated :=
    match texts with
    | text :: _ => inr (OneText text)
    | [] => inl IndexError
    end in
  let all : outcome generated := inr (TextList texts) in
  (count = PyBool true -> run = (first, h7, record)) /\
  (count = PyBool false -> run = (all, h7, record)) /\
  (forall x, count = PyFloat x ->
     (PrimFloat.eqb x 1 = true -> run = (first, h7, record)) /\
     (PrimFloat.eqb x 1 = false -> run = (all, h7, record))) /\
  (count = PyNone -> run = (all, h7, record)) /\
  (forall s, count = PyStr s -> run = (all, h7, record)) /\
  (forall o, count = PyObject o ->
     (forall h8,
        object_eq_one o h7 = (inr true, h8) ->
        run = (first, h8, record ++ [E_object_eq_one o (inr true)])) /\
     (forall h8,
        object_eq_one o h7 = (inr false, h8) ->
        run = (all, h8, record ++ [E_object_eq_one o (inr false)])) /\
     (forall e h8,
        object_eq_one o h7 = (inl e, h8) ->
        run = (inl e, h8, record ++ [E_object_eq_one o (inl e)]))).
Proof.
  intros run record first all.
  assert (Hrun : forall value h' last,
             (is_one <- eq_one count ;;
              if (is_one : bool)
              then text <- first_item texts ;; ret (OneText text)
              else ret (TextList texts)) h7 = (value, h', last) ->
             run = (value, h', record ++ last)).
  { intros value h' last Hlast.
    unfold run, record, generate_text, prepared_events.
    cbv zeta. cbn [app default_arg].
    returned tokenized. returned located. returned moved. returned ids_read.
    returned eos_read. returned rows_generated.
    eapply bind_returned; [apply decodes_run; exact rows_decoded | exact Hlast]. }
  assert (Hsilent : forall value,
             (is_one <- eq_one count ;;
              if (is_one : bool)
              then text <- first_item texts ;; ret (OneText text)
              else ret (TextList texts)) h7 = (value, h7, []) ->
             run = (value, h7, record)).
  { intros value Hlast. specialize (Hrun value h7 [] Hlast).
    now rewrite app_nil_r in Hrun. }
  assert (Hfirst : forall hh,
             (text <- first_item texts ;; ret (OneText text)) hh
             = (first, hh, [])).
  { intros hh. unfold first. now destruct texts. }
  repeat split.
  - intros Hc. apply Hsilent. rewrite Hc. simpl eq_one.
    rewrite bind_ret_l. apply Hfirst.
  - intros Hc. apply Hsilent. rewrite Hc. simpl eq_one.
    now rewrite bind_ret_l.
  - intros Hone. apply Hsilent. rewrite H. simpl eq_one.
    rewrite bind_ret_l, Hone. apply Hfirst.
  - intros Hnot. apply Hsilent. rewrite H. simpl eq_one.
    now rewrite bind_ret_l, Hnot.
  - intros Hc. apply Hsilent. rewrite Hc. simpl eq_one.
    now rewrite bind_ret_l.
  - intros s Hc. apply Hsilent. rewrite Hc. simpl eq_one.
    now rewrite bind_ret_l.
  - intros h8 Hanswer. apply Hrun. rewrite H. simpl eq_one.
    eapply bind_returned_silent;
      [exact (call_run _ _ _ _ _ Hanswer) | apply Hfirst].
  - intros h8 Hanswer. apply Hrun. rewrite H. simpl eq_one.
    eapply bind_returned_silent;
      [exact (call_run _ _ _ _ _ Hanswer) | reflexivity].
  - intros e h8 Hanswer. apply Hrun. rewrite H. simpl eq_one.
    now apply bind_call_raised.
Qed.

End Counts.

(** * The properties on concrete runs *)

(** Builds the derivation that the stand-in decodes the rows. *)
Ltac stub_decodes cfg :=
  repeat (eapply (decodes_cons (F := stub cfg)); [reflexivity |]);
  apply (decodes_nil (F := stub cfg)).

(** Builds the derivation that the stand-in reports the devices. *)
Ltac stub_reports cfg :=
  repeat (eapply (reports_cons (F := stub cfg));
          [reflexivity | reflexivity | reflexivity |]);
  apply (reports_nil (F := stub cfg)).

Lemma generate_text_single_witness :
  run_default = (inr (OneText "Hi0"), 7%nat, events_of run_default).
Proof.
  apply (generate_text_single (F := stub healthy)) with
    (prompt := "Hi") (model := "m") (tokenizer := "t")
    (max_length := None) (temperature := None) (top_p := None)
    (num_return_sequences := None)
    (h := 0%nat) (h1 := 1%nat) (h2 := 2%nat) (h3 := 3%nat) (h4 := 4%nat)
    (h5 := 5%nat) (h6 := 6%nat) (h7 := 7%nat)
    (enc := [72; 105]) (device := "cuda:0") (inputs := [72; 105])
    (input_ids := [72; 105]) (eos := PyInt 128001)
    (row := [72; 105; 48]) (rows := []) (text := "Hi0") (texts := []);
    try reflexivity.
  - left. reflexivity.
  - stub_decodes healthy.
Defined.

Lemma generate_text_many_witness :
  run_three
  = (inr (TextList ["Hi0"; "Hi1"; "Hi2"]), 9%nat, events_of run_three)
  /\ Z.of_nat (length ["Hi0"; "Hi1"; "Hi2"]) = 3.
Proof.
  apply (generate_text_many (F := stub healthy)) with
    (prompt := "Hi") (model := "m") (tokenizer := "t")
    (max_length := Some (PyInt 150)) (temperature := Some (PyFloat 0.8))
    (top_p := None) (N := 3)
    (h := 0%nat) (h1 := 1%nat) (h2 := 2%nat) (h3 := 3%nat) (h4 := 4%nat)
    (h5 := 5%nat) (h6 := 6%nat) (h7 := 9%nat)
    (enc := [72; 105]) (device := "cuda:0") (inputs := [72; 105])
    (input_ids := [72; 105]) (eos := PyInt 128001)
    (rows := [[72; 105; 48]; [72; 105; 49]; [72; 105; 50]])
    (texts := ["Hi0"; "Hi1"; "Hi2"]);
    try reflexivity.
  stub_decodes healthy.
Defined.

(** The values arrive as given, odd as they are: [model.generate]
    raises, for these keyword arguments. *)
Lemma generate_text_passes_parameters_witness :
  run_odd_parameters
  = (inl stub_error, 6%nat,
     prepared_events (F := stub (failing 5)) "t" "Hi" [72; 105] "m" "cuda:0"
       [72; 105] [72; 105] (PyInt 128001)
     ++ [E_model_generate (F := stub (failing 5)) "m" [72; 105]
           (GenerateKwargs (PyStr "long") (PyFloat (-3)) true PyNone (PyInt 1)
              (PyInt 128001))
           (inl stub_error)]).
Proof.
  apply (generate_text_passes_parameters (F := stub (failing 5))) with
    (prompt := "Hi") (model := "m") (tokenizer := "t")
    (max_length := Some (PyStr "long")) (temperature := Some (PyFloat (-3)))
    (top_p := Some PyNone) (num_return_sequences := None)
    (h := 0%nat) (h1 := 1%nat) (h2 := 2%nat) (h3 := 3%nat) (h4 := 4%nat)
    (h5 := 5%nat) (h6 := 6%nat)
    (enc := [72; 105]) (device := "cuda:0") (inputs := [72; 105])
    (input_ids := [72; 105]) (eos := PyInt 128001)
    (res := inl stub_error);
    reflexivity.
Defined.

(** The defaults, read off a run with every parameter left out. *)
Example run_default_parameters :
  nth_error (events_of run_default) 5
  = Some (E_model_generate (F := stub healthy) "m" [72; 105]
            (GenerateKwargs (PyInt 100) (PyFloat 0.7) true (PyFloat 0.9)
               (PyInt 1) (PyInt 128001))
            (inr [[72; 105; 48]])).
Proof. reflexivity. Qed.

Lemma generate_text_pads_with_eos_witness :
  run_odd_parameters
  = (inl stub_error, 6%nat,
     prepared_events (F := stub (failing 5)) "t" "Hi" [72; 105] "m" "cuda:0"
       [72; 105] [72; 105] (PyInt 128001)
     ++ [E_model_generate (F := stub (failing 5)) "m" [72; 105]
           (GenerateKwargs (PyStr "long") (PyFloat (-3)) true PyNone (PyInt 1)
              (PyInt 128001))
           (inl stub_error)]).
Proof.
  apply (generate_text_pads_with_eos (F := stub (failing 5))
           "Hi" "m" "t" (Some (PyStr "long")) (Some (PyFloat (-3))) (Some PyNone)
           0%nat 1%nat 2%nat 3%nat 4%nat [72; 105] "cuda:0" [72; 105] [72; 105]
           eq_refl eq_refl eq_refl eq_refl None (inr (PyInt 128001)) 5%nat eq_refl
           (inl stub_error) 6%nat eq_refl).
Defined.

Lemma generate_text_samples_witness :
  run_cold
  = (inl stub_error, 6%nat,
     prepared_events (F := stub (failing 5)) "t" "Hi" [72; 105] "m" "cuda:0"
       [72; 105] [72; 105] (PyInt 128001)
     ++ [E_model_generate (F := stub (failing 5)) "m" [72; 105]
           (GenerateKwargs (PyInt 100) (PyInt 0) true (PyFloat 0.9) (PyInt 1)
              (PyInt 128001))
           (inl stub_error)])
  /\ fst run_no_greedy = (inr (OneText "Hi0"), 7%nat).
Proof.
  split.
  - apply (proj1 (generate_text_samples (F := stub (failing 5)))) with
      (prompt := "Hi") (model := "m") (tokenizer := "t")
      (max_length := None) (temperature := Some (PyInt 0)) (top_p := None)
      (num_return_sequences := None)
      (h := 0%nat) (h1 := 1%nat) (h2 := 2%nat) (h3 := 3%nat) (h4 := 4%nat)
      (h5 := 5%nat) (h6 := 6%nat)
      (enc := [72; 105]) (device := "cuda:0") (inputs := [72; 105])
      (input_ids := [72; 105]) (eos := PyInt 128001);
      reflexivity.
  - refine (eq_trans
              (proj2 (generate_text_samples (F := stub healthy))
                 refuse_greedy _ "Hi" "m" "t" None (Some (PyInt 0)) None None
                 0%nat)
              eq_refl).
    intros model input_ids kwargs h Hsample.
    unfold refuse_greedy. now rewrite Hsample.
Defined.

Lemma load_model_pair_witness :
  run_load
  = (inr ("deepseek-ai/DeepSeek-R1-Distill-Llama-70B",
          "deepseek-ai/DeepSeek-R1-Distill-Llama-70B"),
     2%nat, events_of run_load).
Proof.
  apply (load_model_pair (F := stub healthy) None 0%nat
           "deepseek-ai/DeepSeek-R1-Distill-Llama-70B" 1%nat
           "deepseek-ai/DeepSeek-R1-Distill-Llama-70B" 2%nat);
    reflexivity.
Defined.

(** The model fails to load; the decode of the second of three rows
    raises. *)
Lemma framework_errors_propagate_witness :
  run_load_fails = (inl stub_error, 2%nat, events_of run_load_fails) /\
  run_second_decode_fails
  = (inl stub_error, 8%nat, events_of run_second_decode_fails).
Proof.
  split.
  - apply (proj2 (proj1 (framework_errors_propagate (F := stub (failing 1)))
                    None 0%nat)
             "deepseek-ai/DeepSeek-R1-Distill-Llama-70B" 1%nat stub_error 2%nat);
      reflexivity.
  - refine (proj1
              (proj2
                 (proj2
                    (proj2
                       (proj2
                          (proj2
                             (proj2
                                (proj2 (framework_errors_propagate
                                          (F := stub (failing 7)))
                                   "Hi" "m" "t" None None None
                                   (Some (PyInt 3)) 0%nat)
                                [72; 105] 1%nat eq_refl)
                             "cuda:0" 2%nat eq_refl)
                          [72; 105] 3%nat eq_refl)
                       [72; 105] 4%nat eq_refl)
                    (PyInt 128001) 5%nat eq_refl))
              [[72; 105; 48]] [72; 105; 49] [[72; 105; 50]] 6%nat ["Hi0"] 7%nat
              stub_error 8%nat eq_refl _ eq_refl).
    stub_decodes (failing 7).
Defined.


Lemma clear_gpu_memory_no_accelerator_witness :
  exists z h',
    run_clear_cpu =
      (inr tt, h',
       [E_gc_collect (F := stub cpu_only) (inr z); E_cuda_empty_cache (inr tt);
        E_cuda_is_available (inr false)]).
Proof.
  apply (clear_gpu_memory_no_accelerator (F := stub cpu_only) 0%nat).
  - intros h0. exists 0, (S h0). reflexivity.
  - intros h0. exists (S h0). reflexivity.
  - intros h0. exists (S h0). reflexivity.
Defined.

(** Two accelerators: two lines. *)
Lemma clear_gpu_memory_calls_witness :
  run_clear
  = (inr tt, 8%nat,
     [E_gc_collect (F := stub healthy) (inr 0); E_cuda_empty_cache (inr tt);
      E_cuda_is_available (inr true); E_cuda_device_count (inr 2);
      E_cuda_memory_allocated 0 (inr 1500000000);
      E_print "GPU 0 memory allocated: 1.50 GB" (inr tt);
      E_cuda_memory_allocated 1 (inr 3000000000);
      E_print "GPU 1 memory allocated: 3.00 GB" (inr tt)]).
Proof.
  refine (proj2 (proj2 (proj2 (clear_gpu_memory_calls (F := stub healthy) 0%nat)
                          0 1%nat eq_refl)
                   tt 2%nat eq_refl)
            3%nat 2 4%nat _ 8%nat eq_refl eq_refl _).
  stub_reports healthy.
Defined.

(** The count is an object of another class that equals [1]: the first
    text. *)
Lemma generate_text_count_not_int_witness :
  run_object_count
  = (inr (OneText "Hi0"), 8%nat, events_of run_object_count).
Proof.
  refine (proj1 (proj2 (proj2 (proj2 (proj2 (proj2
    (generate_text_count_not_int (F := stub healthy)
       "Hi" "m" "t" None None None (PyObject 4)
       0%nat 1%nat 2%nat 3%nat 4%nat 5%nat 6%nat 7%nat
       [72; 105] "cuda:0" [72; 105] [72; 105] (PyInt 128001)
       [[72; 105; 48]] ["Hi0"]
       eq_refl eq_refl eq_refl eq_refl eq_refl eq_refl _))))) 4%N eq_refl)
    8%nat eq_refl).
  stub_decodes healthy.
Defined.

(** More bytes than a [float] holds: [OverflowError], nothing printed. *)
Lemma clear_gpu_memory_errors_witness :
  run_clear_overflows
  = (inl OverflowError, 5%nat,
     ([E_gc_collect (F := stub beyond_float) (inr 0);
       E_cuda_empty_cache (inr tt);
       E_cuda_is_available (inr true); E_cuda_device_count (inr 1)] ++ [])
     ++ [E_cuda_memory_allocated 0 (inr (2 ^ 1024))]).
Proof.
  exact (proj2
           (proj1
              (proj2
                 (proj2
                    (proj2
                       (clear_gpu_memory_errors (F := stub beyond_float)
                          0%nat 0 1%nat tt 2%nat eq_refl eq_refl)
                       3%nat eq_refl)
                    1 4%nat 0%nat [] 4%nat eq_refl (le_n 1)
                    (reports_nil (F := stub beyond_float) 4%nat))
                 (2 ^ 1024) 5%nat eq_refl)
              OverflowError eq_refl)).
Defined.

(** One accelerator: one line. *)
Lemma clear_gpu_memory_report_witness :
  run_clear_one
  = (inr tt, 6%nat,
     [E_gc_collect (F := stub one_accelerator) (inr 0);
      E_cuda_empty_cache (inr tt);
      E_cuda_is_available (inr true); E_cuda_device_count (inr 1)]
     ++ [E_cuda_memory_allocated 0 (inr 1500000000);
         E_print "GPU 0 memory allocated: 1.50 GB" (inr tt)]).
Proof.
  exact (proj2
           (clear_gpu_memory_report (F := stub one_accelerator)
              0%nat 0 1%nat tt 2%nat 3%nat 1 4%nat
              eq_refl eq_refl eq_refl eq_refl)
           eq_refl 1500000000 5%nat "GPU 0 memory allocated: 1.50 GB" 6%nat
           eq_refl eq_refl eq_refl).
Defined.

(** ** Further runs *)

(** [num_return_sequences=1] and no row: [IndexError], raised by the
    notebook's own indexing after every external call returned. *)
Example run_no_rows_raises :
  value_of run_no_rows = inl IndexError /\ state_of run_no_rows = 6%nat.
Proof. split; reflexivity. Qed.

(** A [float] is the binary64 value nearest to what is written:
    [1.0000000000000001] is [1.0]. *)
Example float_written_near_one :
  PyFloat 1.0000000000000001 = PyFloat 1.
Proof. reflexivity. Qed.

(** The report line, as CPython formats it: the quotient is rounded to
    two decimals from its exact binary value. *)
Example report_lines :
  map (report_line 0)
      [0; 4999999; 5000000; 15000000; 25000000; 123456789012; -1;
       2 ^ 1024 - 2 ^ 970]
  = [inr "GPU 0 memory allocated: 0.00 GB";
     inr "GPU 0 memory allocated: 0.00 GB";
     inr "GPU 0 memory allocated: 0.01 GB";
     inr "GPU 0 memory allocated: 0.01 GB";
     inr "GPU 0 memory allocated: 0.03 GB";
     inr "GPU 0 memory allocated: 123.46 GB";
     inr "GPU 0 memory allocated: -0.00 GB";
     inl OverflowError].
Proof. vm_compute. reflexivity. Qed.
